(** * merge_app.py: merging Word documents from a folder

    A shallow embedding of [src/merge_app.py]: the merge engine
    [merge_docx_files] and the handler [DocxMergerApp.start_merge_process]
    that drives it from the three form fields.

    Python [str] values are byte strings holding the UTF-8 encoding of the
    text.  On well-formed UTF-8 the operations the program uses agree with
    Python's on code points: substring search ([in]), suffix tests against an
    ASCII suffix, concatenation, and the lexicographic order, which UTF-8
    preserves.

    The operating system and the document library (python-docx and
    docxcompose) are not part of the repository.  What they decide, which
    paths are directories, which files open, whether a write goes through and
    what the exception says, is left to a [Platform], and so is whether
    [composer.append] takes a document or raises on it; the body of a document
    is modelled as the list of its block elements. *)

From Stdlib Require Import Ascii String DecimalString.
From stdpp Require Import base list strings sorting gmap.

#[local] Arguments String.append !s1 s2 / : simpl nomatch.

(** ** Python primitives on strings *)

Module Py.

(** The line feed of the source's "\n". *)
Definition nl : string := String (ascii_of_nat 10) "".

(** [c.lower()] on a byte: only the ASCII capitals change.  No other
    character lower-cases to an ASCII character that occurs in ".docx", so
    the test [s.lower().endswith(".docx")] depends on these bytes only. *)
Definition lower_ascii (c : ascii) : ascii :=
  let n := nat_of_ascii c in
  if (65 <=? n)%nat && (n <=? 90)%nat then ascii_of_nat (n + 32) else c.

(** [s.lower()] *)
Fixpoint lower (s : string) : string :=
  match s with
  | "" => ""
  | String c s' => String (lower_ascii c) (lower s')
  end.

(** [s.endswith(suffix)] *)
Fixpoint endswith (s suffix : string) : bool :=
  String.eqb s suffix ||
  match s with
  | "" => false
  | String _ s' => endswith s' suffix
  end.

(** [needle in haystack] *)
Fixpoint contains (haystack needle : string) : bool :=
  String.prefix needle haystack ||
  match haystack with
  | "" => false
  | String _ h' => contains h' needle
  end.

(** [s.replace("\n", " ")] *)
Fixpoint replace_nl (s : string) : string :=
  match s with
  | "" => ""
  | String c s' =>
      String (if Ascii.eqb c (ascii_of_nat 10) then " "%char else c)
             (replace_nl s')
  end.

(** [str(n)] for a length: decimal digits, no sign, no leading zero. *)
Definition str (n : nat) : string := NilZero.string_of_uint (Nat.to_uint n).

(** [sorted(names)]: the names in ascending order of [str] comparison. *)
Definition sorted (names : list string) : list string :=
  merge_sort String.le names.

End Py.

(** ** Results of calls that may raise *)

(** A call either returns or raises; of an exception the program only ever
    uses [str(e)]. *)
Inductive outcome (A : Type) : Type :=
| Returned (a : A)
| Raised (diagnostic : string).
Arguments Returned {A} a.
Arguments Raised {A} diagnostic.

#[global] Instance outcome_ret : MRet outcome := λ A a, Returned a.
#[global] Instance outcome_bind : MBind outcome := λ A B f m,
  match m with
  | Returned a => f a
  | Raised e => Raised e
  end.

(** [xs[i]], raising IndexError out of range. *)
Definition getitem {A} (xs : list A) (i : nat) : outcome A :=
  match xs !! i with
  | Some x => Returned x
  | None => Raised "list index out of range"
  end.

(** ** Documents *)

(** A block of a document body: ordinary content or the paragraph holding an
    explicit page break that [add_page_break] creates. *)
Inductive element : Type :=
| Block (content : string)
| PageBreak.

#[global] Instance element_eq_dec : EqDecision element.
Proof. solve_decision. Defined.

(** The body of a document. *)
Abbreviation document := (list element).

(** [Document()]: a new document with an empty body. *)
Definition new_document : document := [].

(** [doc.add_page_break()] *)
Definition add_page_break (doc : document) : document := doc ++ [PageBreak].

(** ** The platform: file system and document library *)

Class Platform : Type := {
  (** the state of the file system *)
  World : Type;
  (** [os.path.isdir(path)] *)
  isdir : World → string → bool;
  (** [os.makedirs(path, exist_ok=True)]; [Raised] is an OSError *)
  makedirs : World → string → World * outcome unit;
  (** [os.listdir(path)] *)
  listdir : World → string → outcome (list string);
  (** [os.path.join(folder, name)] *)
  path_join : string → string → string;
  (** [Document(path)]: opening reads and leaves the file system as it is *)
  Document : World → string → outcome document;
  (** [composer.save(path)] *)
  save : World → document → string → World * outcome unit;
  (** whether [composer.append(doc)] raises on this master document and this
      document, and the text of the exception when it does *)
  append_raises : document → document → option string;
}.

(** ** The merge engine *)

Section Engine.
Context `{Platform}.

(** Line 31. *)
Definition msg_no_files : string :=
  "错误：没有找到要合并的 .docx 文件。".

(** Line 33. *)
Definition msg_at_least_one : string :=
  "错误：至少需要一个文件才能执行操作。".

(** Line 51: the f-string of the success message. *)
Definition msg_success (count : nat) (target_file_path : string) : string :=
  "成功：" +:+ Py.str count +:+ " 个文档已合并到" +:+ Py.nl +:+ target_file_path.

(** Line 53: the f-string of the [except] branch. *)
Definition msg_failure (e : string) : string :=
  "合并过程中发生错误：" +:+ Py.nl +:+ e.

(** The document with the page break only, lines 42 and 43. *)
Definition page_break_doc : document := add_page_break new_document.

(** [composer.append(doc)]: the call raises, or the body of [doc] goes to
    the end of the composer's master document. *)
Definition append (composer doc : document) : outcome document :=
  match append_raises composer doc with
  | Some e => Raised e
  | None => Returned (composer ++ doc)
  end.

(** One turn of the loop of lines 45 to 48 on the composer so far. *)
Definition append_source (w : World) (source_files_list : list string)
    (composer : outcome document) (i : nat) : outcome document :=
  master ← composer;
  master ← append master page_break_doc;
  path ← getitem source_files_list i;
  doc_to_append ← Document w path;
  append master doc_to_append.

(** Lines 37 to 48: what the composer holds when [save] is reached, or the
    first exception raised on the way, by [Document(path)] or by
    [composer.append].  The calls that build objects in memory from nothing
    on disk, [Composer(master_doc)], [Document()] and [add_page_break()], are
    taken to return. *)
Definition compose (w : World) (source_files_list : list string)
    : outcome document :=
  first ← getitem source_files_list 0;
  master_doc ← Document w first;
  if (1 <? length source_files_list)%nat then
    foldl (append_source w source_files_list) (Returned master_doc)
          (seq 1 (length source_files_list - 1))
  else mret master_doc.

(** [merge_docx_files(source_files_list, target_file_path)]: the file
    system after the call and the message returned. *)
Definition merge_docx_files (w : World) (source_files_list : list string)
    (target_file_path : string) : World * string :=
  if bool_decide (source_files_list = []) then (w, msg_no_files)
  else if (length source_files_list <? 1)%nat then (w, msg_at_least_one)
  else
    match compose w source_files_list with
    | Raised e => (w, msg_failure e)
    | Returned composer =>
        match save w composer target_file_path with
        | (w', Returned _) =>
            (w', msg_success (length source_files_list) target_file_path)
        | (w', Raised e) => (w', msg_failure e)
        end
    end.

(** *** Vocabulary of the statements about the engine *)

(** [opens w path body]: on [w], [Document(path)] returns a document with
    this body. *)
Definition opens (w : World) (path : string) (body : document) : Prop :=
  Document w path = Returned body.

(** The bodies in list order, a page break before each. *)
Definition with_breaks (bodies : list document) : document :=
  concat ((λ body, PageBreak :: body) <$> bodies).

(** The number of page breaks of a body. *)
Definition page_breaks (body : document) : nat :=
  length (filter (λ x, x = PageBreak) body).

(** [appends_return composer bodies]: starting from the master document
    [composer], none of the calls of [composer.append] of the loop raises
    when the documents appended have these bodies: for each of them, first
    the page break, then the document. *)
Fixpoint appends_return (composer : document) (bodies : list document)
    : Prop :=
  match bodies with
  | [] => True
  | body :: bodies =>
      append_raises composer page_break_doc = None ∧
      append_raises (composer ++ page_break_doc) body = None ∧
      appends_return ((composer ++ page_break_doc) ++ body) bodies
  end.

End Engine.

(** ** The shell *)

(** The three fields of the form, as [start_merge_process] reads them. *)
Record form : Type := {
  input_dir_var : string;
  output_dir_var : string;
  output_filename_var : string;
}.

(** What one run of the handler does that can be observed: dialogs, the
    status line, and its calls to [os.makedirs] and to the merge engine. *)
Inductive event : Type :=
| showerror (title message : string)
| showinfo (title message : string)
| status_set (text : string)
| update_idletasks
| makedirs_called (path : string)
| merge_called (source_files : list string) (target_file : string).

Section Shell.
Context `{Platform}.

(** Lines 120 and 121. *)
Definition normalize_filename (output_filename : string) : string :=
  if negb (Py.endswith (Py.lower output_filename) ".docx")
  then output_filename +:+ ".docx"
  else output_filename.

(** The body of the loop of lines 139 to 141. *)
Definition select_step (input_path : string) (source_files : list string)
    (filename : string) : list string :=
  if Py.endswith (Py.lower filename) ".docx"
  then source_files ++ [path_join input_path filename]
  else source_files.

(** Lines 134 to 141 on the names [os.listdir] returned. *)
Definition select_sources (input_path : string) (listing : list string)
    : list string :=
  foldl (select_step input_path) [] (Py.sorted listing).

(** Lines 158 to 162. *)
Definition report (result_message : string) : list event :=
  [ if Py.contains result_message "成功"
    then showinfo "合并完成" result_message
    else showerror "合并失败" result_message;
    status_set (Py.replace_nl result_message) ].

(** Lines 134 to 162: the scan of the input folder and the merge. *)
Definition scan_and_merge (w : World) (input_path output_path
    output_filename : string) : World * list event :=
  match listdir w input_path with
  | Raised e =>
      (w, [showerror "错误" ("读取输入文件夹时出错：" +:+ Py.nl +:+ e)])
  | Returned listing =>
      let source_files := select_sources input_path listing in
      if bool_decide (source_files = []) then
        (w, [showinfo "提示" "在输入文件夹中没有找到 .docx 文件。";
             status_set "未找到 .docx 文件。"])
      else
        let target_file := path_join output_path output_filename in
        let '(w', result_message) :=
          merge_docx_files w source_files target_file in
        (w', [status_set "正在合并文档..."; update_idletasks;
              merge_called source_files target_file]
             ++ report result_message)
  end.

(** [DocxMergerApp.start_merge_process], lines 115 to 162. *)
Definition start_merge_process (w : World) (self : form)
    : World * list event :=
  let input_path := input_dir_var self in
  let output_path := output_dir_var self in
  let output_filename := normalize_filename (output_filename_var self) in
  if negb (isdir w input_path) then
    (w, [showerror "错误" ("输入文件夹不存在：" +:+ Py.nl +:+ input_path)])
  else if negb (isdir w output_path) then
    match makedirs w output_path with
    | (w1, Raised e) =>
        (w1, [makedirs_called output_path;
              showerror "错误" ("无法创建输出文件夹：" +:+ Py.nl +:+ output_path
                                +:+ Py.nl +:+ e)])
    | (w1, Returned _) =>
        let '(w2, events) :=
          scan_and_merge w1 input_path output_path output_filename in
        (w2, makedirs_called output_path :: events)
    end
  else scan_and_merge w input_path output_path output_filename.

End Shell.

(** ** The folder pickers *)

(** [DocxMergerApp.select_input_dir], lines 105 to 108, on the answer of
    [filedialog.askdirectory]: the empty string when the dialog is
    cancelled. *)
Definition select_input_dir (self : form) (dir_path : string) : form :=
  if bool_decide (dir_path ≠ "") then
    {| input_dir_var := dir_path;
       output_dir_var := output_dir_var self;
       output_filename_var := output_filename_var self |}
  else self.

(** [DocxMergerApp.select_output_dir], lines 110 to 113. *)
Definition select_output_dir (self : form) (dir_path : string) : form :=
  if bool_decide (dir_path ≠ "") then
    {| input_dir_var := input_dir_var self;
       output_dir_var := dir_path;
       output_filename_var := output_filename_var self |}
  else self.

(** ** Vocabulary of the statements about a run of the handler *)

(** The names that end with ".docx" in any mix of capitals and small
    letters, spelled out letter by letter. *)
Definition is_docx_name (name : string) : Prop :=
  ∃ (stem : string) (d o c x : ascii),
    name = stem +:+ String "." (String d (String o (String c (String x ""))))
    ∧ (d = "d" ∨ d = "D")%char ∧ (o = "o" ∨ o = "O")%char
    ∧ (c = "c" ∨ c = "C")%char ∧ (x = "x" ∨ x = "X")%char.



(** The texts the status line was set to, in order. *)
Definition status_texts (events : list event) : list string :=
  omap (λ ev, match ev with status_set text => Some text | _ => None end)
       events.

(** ** A platform to run the program on

    A small file system in the POSIX way, with the diagnostics python-docx and
    the operating system give.  The statements below hold on every platform;
    this one serves to run the program on concrete folders. *)

Module Disk.

(** A file either opens as a document or makes [Document(path)] raise the
    exception whose text it carries. *)
Inductive file : Type :=
| Docx (body : document)
| Damaged (diagnostic : string).

Record disk : Type := {
  (** the directories, each with the names [os.listdir] gives for it *)
  folders : gmap string (list string);
  (** the files, by path *)
  files : gmap string file;
  (** the paths at which nothing may be created or written *)
  denied : gset string;
}.

(** [posixpath.join(folder, name)] *)
Definition join (folder name : string) : string :=
  if String.prefix "/" name then name
  else if bool_decide (folder = "") || Py.endswith folder "/"
       then folder +:+ name
       else folder +:+ "/" +:+ name.

Definition permission_denied (path : string) : string :=
  "[Errno 13] Permission denied: '" +:+ path +:+ "'".

Definition disk_isdir (d : disk) (path : string) : bool :=
  bool_decide (is_Some (folders d !! path)).

Definition disk_makedirs (d : disk) (path : string) : disk * outcome unit :=
  if bool_decide (path ∈ denied d) then (d, Raised (permission_denied path))
  else
    match folders d !! path with
    | Some _ => (d, Returned ())
    | None =>
        ({| folders := <[path := []]> (folders d); files := files d;
            denied := denied d |}, Returned ())
    end.

Definition disk_listdir (d : disk) (path : string) : outcome (list string) :=
  match folders d !! path with
  | Some names => Returned names
  | None =>
      Raised ("[Errno 2] No such file or directory: '" +:+ path +:+ "'")
  end.

Definition disk_Document (d : disk) (path : string) : outcome document :=
  match files d !! path with
  | Some (Docx body) => Returned body
  | Some (Damaged diagnostic) => Raised diagnostic
  | None => Raised ("Package not found at '" +:+ path +:+ "'")
  end.

Definition disk_save (d : disk) (doc : document) (path : string)
    : disk * outcome unit :=
  if bool_decide (path ∈ denied d) then (d, Raised (permission_denied path))
  else
    ({| folders := folders d; files := <[path := Docx doc]> (files d);
        denied := denied d |}, Returned ()).

(** A block that refers to a relationship its document does not have. *)
Definition dangling : element := Block "blip r:embed=rId99".

(** docxcompose looks the relationship up when it appends the document, and
    the lookup raises KeyError. *)
Definition disk_append_raises (composer doc : document) : option string :=
  if bool_decide (dangling ∈ doc) then Some "'rId99'" else None.

#[global] Instance posix : Platform := {|
  World := disk;
  isdir := disk_isdir;
  makedirs := disk_makedirs;
  listdir := disk_listdir;
  path_join := join;
  Document := disk_Document;
  save := disk_save;
  append_raises := disk_append_raises;
|}.

(** Three documents and a text file in [/in], an empty [/out]. *)
Definition sample : disk := {|
  folders := {[ "/in" := ["b.docx"; "notes.txt"; "a.docx"; "C.DOCX"];
                "/out" := [] ]};
  files := {[ "/in/a.docx" := Docx [Block "a1"; Block "a2"];
              "/in/b.docx" := Docx [Block "b1"];
              "/in/C.DOCX" := Docx [PageBreak; Block "c1"];
              "/in/notes.txt" :=
                Damaged "Package not found at '/in/notes.txt'" ]};
  denied := ∅;
|}.

(** A folder whose second document is a zip archive with a corrupted
    central directory: python-docx lets zipfile's BadZipFile through. *)
Definition corrupted : disk := {|
  folders := {[ "/in" := ["a.docx"; "b.docx"]; "/out" := [] ]};
  files := {[ "/in/a.docx" := Docx [Block "a1"];
              "/in/b.docx" :=
                Damaged "Bad magic number for central directory" ]};
  denied := ∅;
|}.

(** An output folder named 成功 in which the target cannot be written. *)
Definition locked : disk := {|
  folders := {[ "/in" := ["a.docx"]; "/成功" := [] ]};
  files := {[ "/in/a.docx" := Docx [Block "a1"] ]};
  denied := {[ "/成功/merged_document.docx" ]};
|}.

(** No folder can be created at [/srv/out]. *)
Definition sealed : disk := {|
  folders := {[ "/in" := ["a.docx"] ]};
  files := {[ "/in/a.docx" := Docx [Block "a1"] ]};
  denied := {[ "/srv/out" ]};
|}.

End Disk.

(** More folders to run the handler on. *)

Module Cases.

(** An input folder without a single .docx file. *)
Definition only_text : Disk.disk := {|
  Disk.folders := {[ "/in" := ["notes.txt"; "docx"; "a.doc"]; "/out" := [] ]};
  Disk.files := {[ "/in/notes.txt" :=
                     Disk.Damaged "Package not found at '/in/notes.txt'" ]};
  Disk.denied := ∅;
|}.

(** A folder whose second document opens and cannot be appended. *)
Definition unappendable : Disk.disk := {|
  Disk.folders := {[ "/in" := ["a.docx"; "h.docx"]; "/out" := [] ]};
  Disk.files := {[ "/in/a.docx" := Disk.Docx [Block "a1"];
                   "/in/h.docx" := Disk.Docx [Block "h1"; Disk.dangling] ]};
  Disk.denied := ∅;
|}.

End Cases.

(** * Properties *)

(** ** The string primitives *)

Module PyFacts.
Import Py.

Lemma append_empty_r (s : string) : s +:+ "" = s.
Proof. induction s as [|c s IH]; simpl; [done | by rewrite IH]. Qed.

Lemma append_assoc (a b c : string) : (a +:+ b) +:+ c = a +:+ (b +:+ c).
Proof. induction a as [|x a IH]; simpl; [done | by rewrite IH]. Qed.

Lemma length_append (a b : string) :
  String.length (a +:+ b) = String.length a + String.length b.
Proof. induction a as [|x a IH]; simpl; [done | by rewrite IH]. Qed.

Lemma prefix_spec (p s : string) :
  String.prefix p s = true ↔ ∃ t, s = p +:+ t.
Proof.
  revert s. induction p as [|c p IH]; intros [|c' s]; simpl.
  - split; [by exists "" | done].
  - split; [by exists (String c' s) | done].
  - split; [done | by intros [t ?]].
  - destruct (ascii_dec c c') as [->|Hne].
    + rewrite IH. split; intros [t Ht]; exists t; congruence.
    + split; [done | intros [t Ht]; congruence].
Qed.

Lemma endswith_spec (s suffix : string) :
  endswith s suffix = true ↔ ∃ pre, s = pre +:+ suffix.
Proof.
  induction s as [|c s IH]; cbn [endswith].
  - rewrite orb_false_r, String.eqb_eq. split.
    + intros <-. by exists "".
    + intros [[|] Hpre]; simpl in Hpre; [done | discriminate].
  - rewrite orb_true_iff, String.eqb_eq, IH. split.
    + intros [<- | [pre ->]]; [by exists "" | by exists (String c pre)].
    + intros [[|c' pre] Hpre]; simpl in Hpre; [by left | right].
      injection Hpre as -> ->. by exists pre.
Qed.

Lemma contains_spec (haystack needle : string) :
  contains haystack needle = true ↔
  ∃ pre post, haystack = pre +:+ needle +:+ post.
Proof.
  induction haystack as [|c h IH]; cbn [contains].
  - rewrite orb_false_r, prefix_spec. split.
    + intros [t Ht]. by exists "", t.
    + intros [[|] [post Hpost]]; simpl in Hpost; [by exists post | done].
  - rewrite orb_true_iff, prefix_spec, IH. split.
    + intros [[t Ht] | (pre & post & ->)];
        [by exists "", t | by exists (String c pre), post].
    + intros [[|c' pre] [post Hpost]]; simpl in Hpost.
      * left. by exists post.
      * right. injection Hpost as -> ->. by exists pre, post.
Qed.

Lemma contains_app_r (a b needle : string) :
  contains b needle = true → contains (a +:+ b) needle = true.
Proof.
  rewrite !contains_spec. intros (pre & post & ->).
  exists (a +:+ pre), post. by rewrite append_assoc.
Qed.

Lemma contains_app_l (a b needle : string) :
  contains a needle = true → contains (a +:+ b) needle = true.
Proof.
  rewrite !contains_spec. intros (pre & post & ->).
  exists pre, (post +:+ b). by rewrite !append_assoc.
Qed.

Lemma contains_self (s : string) : contains s s = true.
Proof. apply contains_spec. exists "", "". simpl. by rewrite append_empty_r. Qed.

Lemma lower_app (a b : string) : lower (a +:+ b) = lower a +:+ lower b.
Proof. induction a as [|c a IH]; simpl; [done | by rewrite IH]. Qed.

Lemma lower_length (s : string) : String.length (lower s) = String.length s.
Proof. induction s as [|c s IH]; simpl; [done | by rewrite IH]. Qed.

Lemma Sorted_sorted (names : list string) : Sorted String.le (sorted names).
Proof. apply (Sorted_merge_sort String.le). Qed.

Lemma sorted_Permutation (names : list string) : sorted names ≡ₚ names.
Proof. apply merge_sort_Permutation. Qed.

End PyFacts.

(** ** The output file name *)

Section Filename.

Lemma app_cancel_r (a b c : string) : a +:+ c = b +:+ c → a = b.
Proof.
  revert b. induction a as [|x a IH]; intros [|y b] Heq; simpl in Heq.
  - done.
  - apply (f_equal String.length) in Heq. simpl in Heq.
    rewrite PyFacts.length_append in Heq. lia.
  - apply (f_equal String.length) in Heq. simpl in Heq.
    rewrite PyFacts.length_append in Heq. lia.
  - injection Heq as -> Heq. f_equal. by apply IH.
Qed.

Lemma appended_has_extension (name : string) :
  Py.endswith (Py.lower (name +:+ ".docx")) ".docx" = true.
Proof.
  rewrite PyFacts.lower_app. apply PyFacts.endswith_spec.
  by exists (Py.lower name).
Qed.

Lemma appended_has_it_once (name : string) :
  Py.endswith (Py.lower name) ".docx" = false →
  Py.endswith (Py.lower (name +:+ ".docx")) ".docx.docx" = false.
Proof.
  intros Hno. apply not_true_is_false. intros Htwice.
  apply PyFacts.endswith_spec in Htwice as [pre Hpre].
  rewrite PyFacts.lower_app in Hpre.
  change ".docx.docx" with (".docx" +:+ ".docx") in Hpre.
  change (Py.lower ".docx") with ".docx" in Hpre.
  rewrite <- PyFacts.append_assoc in Hpre. apply app_cancel_r in Hpre.
  assert (Py.endswith (Py.lower name) ".docx" = true) as Hyes
    by (apply PyFacts.endswith_spec; eauto).
  congruence.
Qed.

(** C4, as the code has it.  The normalized output file name ends with the
    extension ".docx" compared without regard to case.  The extension is
    appended exactly when the name the user typed does not end with it
    already, and then the name ends with one instance of it and not two; a
    name that ends with it already is kept as typed, so the extension is never
    added a second time and normalizing again changes nothing. *)
Theorem normalize_filename_one_extension (name : string) :
  let has_extension s := Py.endswith (Py.lower s) ".docx" in
  let normalized := normalize_filename name in
  has_extension normalized = true ∧
  (normalized = name +:+ ".docx" ↔ has_extension name = false) ∧
  (normalized = name ↔ has_extension name = true) ∧
  (has_extension name = false →
     Py.endswith (Py.lower normalized) ".docx.docx" = false) ∧
  normalize_filename normalized = normalized.
Proof.
  intros has_extension normalized. subst has_extension normalized.
  unfold normalize_filename.
  destruct (Py.endswith (Py.lower name) ".docx") eqn:Hext; simpl.
  - rewrite Hext. simpl. repeat split; try done.
    intros Heq. apply (f_equal String.length) in Heq.
    rewrite PyFacts.length_append in Heq. simpl in Heq. lia.
  - rewrite appended_has_extension. simpl. repeat split; try done.
    + intros Heq. apply (f_equal String.length) in Heq.
      rewrite PyFacts.length_append in Heq. simpl in Heq. lia.
    + intros _. by apply appended_has_it_once.
Qed.

(** A name typed with the extension twice is kept as typed: the normalized
    name then ends with two instances of the extension, in whatever case they
    were typed. *)
Lemma normalize_filename_keeps_repeated_extension :
  normalize_filename "a.docx.docx" = "a.docx.docx" ∧
  Py.endswith (normalize_filename "a.docx.docx") (".docx" +:+ ".docx") = true ∧
  normalize_filename "a.DOCX.docx" = "a.DOCX.docx" ∧
  Py.endswith (Py.lower (normalize_filename "a.DOCX.docx"))
              (".docx" +:+ ".docx") = true.
Proof. repeat split; reflexivity. Qed.

Example normalize_filename_samples :
  normalize_filename "merged_document.docx" = "merged_document.docx" ∧
  normalize_filename "report" = "report.docx" ∧
  normalize_filename "Report.DocX" = "Report.DocX" ∧
  normalize_filename "notes.doc" = "notes.doc.docx" ∧
  normalize_filename "" = ".docx".
Proof. repeat split; reflexivity. Qed.

End Filename.

(** ** The selection of the source files *)

Section Selection.
Context `{Platform}.

Lemma select_foldl (input_path : string) (names acc : list string) :
  foldl (select_step input_path) acc names =
  acc ++ (path_join input_path <$>
            filter (λ n, Py.endswith (Py.lower n) ".docx") names).
Proof.
  revert acc. induction names as [|n names IH]; intros acc; simpl.
  - by rewrite app_nil_r.
  - rewrite IH, filter_cons. unfold select_step.
    destruct (Py.endswith (Py.lower n) ".docx") eqn:Hn.
    + rewrite decide_True by done. by rewrite <- app_assoc.
    + by rewrite decide_False by (intros Hfalse; exact Hfalse).
Qed.

Lemma select_sources_filter (input_path : string) (listing : list string) :
  select_sources input_path listing =
  path_join input_path <$>
    filter (λ n, Py.endswith (Py.lower n) ".docx") (Py.sorted listing).
Proof. unfold select_sources. by rewrite select_foldl. Qed.

Lemma StronglySorted_filter {A} (R : relation A) (P : A → Prop)
    `{∀ x, Decision (P x)} (l : list A) :
  StronglySorted R l → StronglySorted R (filter P l).
Proof.
  induction 1 as [|x l Hl IH Hx]; [constructor|].
  rewrite filter_cons. case_decide; [|done].
  constructor; [done|].
  apply Forall_forall. intros y [_ Hy]%list_elem_of_filter.
  by eapply Forall_forall in Hx.
Qed.

Lemma lower_ascii_dot (c : ascii) :
  Py.lower_ascii c = "."%char → c = "."%char.
Proof.
  destruct c as [[] [] [] [] [] [] [] []]; vm_compute; intros Heq;
    (discriminate || reflexivity).
Qed.

Lemma lower_ascii_letter (c small capital : ascii) :
  (small, capital) ∈ [("d", "D"); ("o", "O"); ("c", "C"); ("x", "X")]%char →
  Py.lower_ascii c = small → c = small ∨ c = capital.
Proof.
  intros Hpair.
  repeat (apply elem_of_cons in Hpair as [[= -> ->]|Hpair]);
    [..|by apply elem_of_nil in Hpair];
    destruct c as [[] [] [] [] [] [] [] []]; vm_compute; intros Heq;
    first [discriminate | by left | by right].
Qed.

Lemma lower_app_inv (name a b : string) :
  Py.lower name = a +:+ b →
  ∃ n1 n2, name = n1 +:+ n2 ∧ Py.lower n1 = a ∧ Py.lower n2 = b.
Proof.
  revert name. induction a as [|x a IH]; intros name Hname.
  - by exists "", name.
  - destruct name as [|c name]; [done|]. simpl in Hname.
    injection Hname as Hc Hname.
    apply IH in Hname as (n1 & n2 & -> & <- & <-).
    exists (String c n1), n2. simpl. by rewrite Hc.
Qed.

(** The test of lines 120 and 140, letter by letter. *)
Lemma extension_test (name : string) :
  Py.endswith (Py.lower name) ".docx" = true ↔ is_docx_name name.
Proof.
  rewrite PyFacts.endswith_spec. split.
  - intros [pre (stem & ext & -> & _ & Hext)%lower_app_inv].
    destruct ext as [|c0 [|d [|o [|c [|x [|]]]]]]; try done.
    simpl in Hext. injection Hext as H0 Hd Ho Hc Hx.
    apply lower_ascii_dot in H0 as ->.
    exists stem, d, o, c, x. split; [done|].
    split; [apply (lower_ascii_letter d "d" "D"); [set_solver | done]|].
    split; [apply (lower_ascii_letter o "o" "O"); [set_solver | done]|].
    split; [apply (lower_ascii_letter c "c" "C"); [set_solver | done]|].
    apply (lower_ascii_letter x "x" "X"); [set_solver | done].
  - intros (stem & d & o & c & x & -> & Hd & Ho & Hc & Hx).
    exists (Py.lower stem). rewrite PyFacts.lower_app. f_equal.
    destruct Hd as [-> | ->], Ho as [-> | ->], Hc as [-> | ->],
      Hx as [-> | ->]; reflexivity.
Qed.

End Selection.

(** C6.  From the names [os.listdir] gave, the shell selects exactly those
    that end with ".docx" compared without regard to case, that is with a dot
    and the four letters each a capital or a small letter, each name as often
    as it is listed, in ascending order of the file names as they are spelled,
    and each joined with the input folder.  A folder holding a.docx, b.docx
    and notes.txt yields a.docx and b.docx, in that order; names with the
    extension in capitals are selected too, and sort before the small
    letters. *)
Theorem select_sources_sorted_docx :
  (∀ (P : Platform) (input_path : string) (listing : list string),
     ∃ names : list string,
       select_sources input_path listing = path_join input_path <$> names ∧
       names ≡ₚ filter (λ n, Py.endswith (Py.lower n) ".docx") listing ∧
       (∀ n, n ∈ names ↔
             n ∈ listing ∧ Py.endswith (Py.lower n) ".docx" = true) ∧
       Sorted String.le names ∧
       (∀ n, n ∈ names ↔ n ∈ listing ∧ is_docx_name n)) ∧
  select_sources (H := Disk.posix) "/in" ["notes.txt"; "b.docx"; "a.docx"]
  = ["/in/a.docx"; "/in/b.docx"] ∧
  select_sources (H := Disk.posix) "/in"
    ["b.docx"; "notes.txt"; "d.DocX"; "a.docx"; "C.DOCX"; "docx"; "e.docx.bak"]
  = ["/in/C.DOCX"; "/in/a.docx"; "/in/b.docx"; "/in/d.DocX"] ∧
  (∀ n, Py.endswith (Py.lower n) ".docx" = true ↔ is_docx_name n).
Proof.
  split; [|split; [reflexivity | split; [reflexivity | apply extension_test]]].
  intros P input_path listing.
  exists (filter (λ n, Py.endswith (Py.lower n) ".docx") (Py.sorted listing)).
  assert (∀ n, n ∈ filter (λ n, Py.endswith (Py.lower n) ".docx")
                     (Py.sorted listing) ↔
               n ∈ listing ∧ Py.endswith (Py.lower n) ".docx" = true) as Hmem.
  { intros n. rewrite list_elem_of_filter, PyFacts.sorted_Permutation.
    rewrite Is_true_true. tauto. }
  split; [apply select_sources_filter|].
  split; [by rewrite PyFacts.sorted_Permutation|].
  split; [done|]. split.
  - apply StronglySorted_Sorted, StronglySorted_filter.
    apply Sorted_StronglySorted; [apply _ | apply PyFacts.Sorted_sorted].
  - intros n. by rewrite Hmem, extension_test.
Qed.

(** ** The merge engine *)

Section EngineFacts.
Context `{Platform}.

Lemma foldl_raised (w : World) (srcs : list string) (e : string)
    (indices : list nat) :
  foldl (append_source w srcs) (Raised e) indices = Raised e.
Proof. induction indices as [|i indices IH]; simpl; done. Qed.

(** One turn of the loop on a composer that holds [acc]. *)
Lemma append_source_returned (w : World) (srcs : list string)
    (acc : document) (i : nat) :
  append_source w srcs (Returned acc) i =
  match append_raises acc page_break_doc with
  | Some e => Raised e
  | None =>
      match srcs !! i with
      | None => Raised "list index out of range"
      | Some path =>
          match Document w path with
          | Raised e => Raised e
          | Returned body =>
              match append_raises (acc ++ page_break_doc) body with
              | Some e => Raised e
              | None => Returned ((acc ++ page_break_doc) ++ body)
              end
          end
      end
  end.
Proof.
  unfold append_source, append, getitem. simpl.
  destruct (append_raises acc page_break_doc); simpl; [done|].
  destruct (srcs !! i) as [path|]; simpl; [|done].
  destruct (Document w path) as [body|e]; simpl; [|done].
  by destruct (append_raises (acc ++ page_break_doc) body).
Qed.

Lemma with_breaks_cons (body : document) (bodies : list document) :
  with_breaks (body :: bodies) = [PageBreak] ++ body ++ with_breaks bodies.
Proof. reflexivity. Qed.

Lemma foldl_append_sources (w : World) (srcs paths : list string)
    (bodies : list document) :
  Forall2 (opens w) paths bodies →
  ∀ (i : nat) (acc : document),
    (∀ k p, paths !! k = Some p → srcs !! (i + k) = Some p) →
    appends_return acc bodies →
    foldl (append_source w srcs) (Returned acc) (seq i (length paths))
    = Returned (acc ++ with_breaks bodies).
Proof.
  induction 1 as [|p body paths bodies Hp _ IH];
    intros i acc Hat Happ; cbn [length seq foldl].
  - by rewrite app_nil_r.
  - assert (srcs !! i = Some p) as Hi
      by (rewrite <- (Nat.add_0_r i); by apply Hat).
    destruct Happ as (Hbreak & Hdoc & Happ).
    rewrite append_source_returned, Hbreak, Hi, Hp, Hdoc, IH.
    + rewrite with_breaks_cons. by rewrite <- !app_assoc.
    + intros k q Hk. replace (S i + k) with (i + S k) by lia.
      by apply Hat.
    + done.
Qed.

(** What the loop has done when it returns. *)
Lemma foldl_append_sources_inv (w : World) (srcs paths : list string) :
  ∀ (i : nat) (acc doc : document),
    (∀ k p, paths !! k = Some p → srcs !! (i + k) = Some p) →
    foldl (append_source w srcs) (Returned acc) (seq i (length paths))
    = Returned doc →
    ∃ bodies, Forall2 (opens w) paths bodies ∧ appends_return acc bodies ∧
              doc = acc ++ with_breaks bodies.
Proof.
  induction paths as [|p paths IH]; intros i acc doc Hat Hdoc;
    cbn [length seq foldl] in Hdoc.
  - exists []. split; [constructor|]. split; [done|].
    rewrite app_nil_r. congruence.
  - assert (srcs !! i = Some p) as Hi
      by (rewrite <- (Nat.add_0_r i); by apply Hat).
    rewrite append_source_returned, Hi in Hdoc.
    destruct (append_raises acc page_break_doc) eqn:Hbreak;
      [by rewrite foldl_raised in Hdoc|].
    destruct (Document w p) as [body|e] eqn:Hp;
      [|by rewrite foldl_raised in Hdoc].
    destruct (append_raises (acc ++ page_break_doc) body) eqn:Happ;
      [by rewrite foldl_raised in Hdoc|].
    apply IH in Hdoc as (bodies & Hall & Happs & ->).
    + exists (body :: bodies). split; [by constructor|].
      split; [done|]. rewrite with_breaks_cons. by rewrite <- !app_assoc.
    + intros k q Hk. replace (S i + k) with (i + S k) by lia.
      by apply Hat.
Qed.

Lemma compose_cons (w : World) (first : string) (rest : list string) :
  compose w (first :: rest) =
  Document w first ≫= λ master_doc,
    foldl (append_source w (first :: rest)) (Returned master_doc)
          (seq 1 (length rest)).
Proof.
  unfold compose, getitem. simpl.
  destruct (Document w first) as [master_doc|e]; simpl; [|done].
  destruct rest as [|p rest]; simpl; done.
Qed.

Lemma compose_readable (w : World) (first : string) (rest : list string)
    (body : document) (bodies : list document) :
  opens w first body → Forall2 (opens w) rest bodies →
  appends_return body bodies →
  compose w (first :: rest) = Returned (body ++ with_breaks bodies).
Proof.
  intros Hfirst Hrest Happ. rewrite compose_cons, Hfirst. simpl.
  by apply foldl_append_sources.
Qed.

Lemma compose_returned_inv (w : World) (first : string) (rest : list string)
    (doc : document) :
  compose w (first :: rest) = Returned doc →
  ∃ body bodies, opens w first body ∧ Forall2 (opens w) rest bodies ∧
                 appends_return body bodies ∧
                 doc = body ++ with_breaks bodies.
Proof.
  rewrite compose_cons. destruct (Document w first) as [body|e] eqn:Hfirst;
    simpl; [|done].
  intros (bodies & Hrest & Happ & ->)%foldl_append_sources_inv; [|done].
  by exists body, bodies.
Qed.

Lemma compose_nonempty (w : World) (srcs : list string) (doc : document) :
  compose w srcs = Returned doc → srcs ≠ [].
Proof. by intros Hdoc ->. Qed.

Lemma compose_returned_all_open (w : World) (srcs : list string)
    (doc : document) :
  compose w srcs = Returned doc →
  Forall (λ p, ∃ body, Document w p = Returned body) srcs.
Proof.
  destruct srcs as [|first rest]; [done|].
  intros (body & bodies & Hfirst & Hrest & _)%compose_returned_inv.
  constructor; [by exists body|].
  clear -Hrest. induction Hrest; constructor; eauto.
Qed.

Lemma compose_raises_on_unreadable (w : World) (srcs : list string)
    (p e : string) :
  p ∈ srcs → Document w p = Raised e → ∃ e', compose w srcs = Raised e'.
Proof.
  intros Hin Hp. destruct (compose w srcs) as [doc|e'] eqn:Hc; [|eauto].
  apply compose_returned_all_open in Hc.
  eapply Forall_forall in Hc as [body Hbody]; [|done]. congruence.
Qed.

(** The loop looks at the list only at the indices it is run on. *)
Lemma foldl_append_source_ext (w : World) (srcs srcs' : list string)
    (n : nat) :
  ∀ (i : nat) (acc : outcome document),
    (∀ k, i ≤ k < i + n → srcs !! k = srcs' !! k) →
    foldl (append_source w srcs) acc (seq i n)
    = foldl (append_source w srcs') acc (seq i n).
Proof.
  induction n as [|n IH]; intros i acc Hsame; cbn [seq foldl]; [done|].
  rewrite IH by (intros k Hk; apply Hsame; lia).
  f_equal. destruct acc as [master|e]; [|done].
  by rewrite !append_source_returned, (Hsame i) by lia.
Qed.

(** Composing a list goes on from the composition of a beginning of it. *)
Lemma compose_app (w : World) (first : string) (pre more : list string) :
  compose w ((first :: pre) ++ more) =
  foldl (append_source w ((first :: pre) ++ more)) (compose w (first :: pre))
        (seq (S (length pre)) (length more)).
Proof.
  rewrite <- app_comm_cons, !compose_cons.
  destruct (Document w first) as [master_doc|e]; simpl;
    [|by rewrite foldl_raised].
  rewrite length_app, seq_app, foldl_app. f_equal.
  apply foldl_append_source_ext. intros k Hk.
  destruct k as [|k]; [lia|]. simpl. apply lookup_app_l. lia.
Qed.

Lemma compose_unreadable_next (w : World) (first : string)
    (pre post : list string) (doc : document) (bad e : string) :
  compose w (first :: pre) = Returned doc →
  append_raises doc page_break_doc = None →
  Document w bad = Raised e →
  compose w ((first :: pre) ++ bad :: post) = Raised e.
Proof.
  intros Hpre Hbreak Hbad. rewrite compose_app, Hpre. cbn [length seq foldl].
  rewrite append_source_returned, Hbreak.
  replace (((first :: pre) ++ bad :: post) !! S (length pre)) with (Some bad)
    by (symmetry; apply (list_lookup_middle (first :: pre)); done).
  rewrite Hbad. apply foldl_raised.
Qed.

Lemma opens_functional (w : World) (paths : list string)
    (bodies bodies' : list document) :
  Forall2 (opens w) paths bodies → Forall2 (opens w) paths bodies' →
  bodies = bodies'.
Proof.
  intros Hall. revert bodies'.
  induction Hall as [|p body paths bodies Hp _ IH]; intros bodies' Hall'.
  - by apply Forall2_nil_inv_l in Hall'.
  - apply Forall2_cons_inv_l in Hall' as (body' & bodies'' & Hp' & Hall' & ->).
    unfold opens in *. f_equal; [congruence | by apply IH].
Qed.

Lemma msg_failure_not_success (e : string) (n : nat) (t : string) :
  msg_failure e ≠ msg_success n t.
Proof. unfold msg_failure, msg_success. simpl. discriminate. Qed.

Lemma merge_compose_raised (w : World) (srcs : list string)
    (target e : string) :
  srcs ≠ [] → compose w srcs = Raised e →
  merge_docx_files w srcs target = (w, msg_failure e).
Proof.
  intros Hne Hraised. unfold merge_docx_files.
  rewrite bool_decide_eq_false_2 by done.
  destruct srcs as [|p srcs]; [done|]. simpl. by rewrite Hraised.
Qed.

Lemma merge_compose_returned (w : World) (srcs : list string)
    (target : string) (doc : document) :
  compose w srcs = Returned doc →
  merge_docx_files w srcs target =
  (let '(w', saved) := save w doc target in
   (w', match saved with
        | Returned _ => msg_success (length srcs) target
        | Raised e => msg_failure e
        end)).
Proof.
  intros Hdoc. pose proof (compose_nonempty w srcs doc Hdoc) as Hne.
  unfold merge_docx_files. rewrite bool_decide_eq_false_2 by done.
  destruct srcs as [|p srcs]; [done|].
  change (length (p :: srcs) <? 1)%nat with false. cbv iota.
  rewrite Hdoc. by destruct (save w doc target) as [w' [[]|e]].
Qed.

Lemma page_breaks_app (a b : document) :
  page_breaks (a ++ b) = page_breaks a + page_breaks b.
Proof. unfold page_breaks. by rewrite filter_app, length_app. Qed.

Lemma page_breaks_with_breaks (bodies : list document) :
  page_breaks (with_breaks bodies)
  = page_breaks (concat bodies) + length bodies.
Proof.
  induction bodies as [|body bodies IH]; [done|].
  rewrite with_breaks_cons. cbn [concat length].
  rewrite !page_breaks_app, IH.
  change (page_breaks [PageBreak]) with 1. lia.
Qed.

Lemma with_breaks_app (xs ys : list document) :
  with_breaks (xs ++ ys) = with_breaks xs ++ with_breaks ys.
Proof. unfold with_breaks. by rewrite fmap_app, concat_app. Qed.

Lemma merge_state (w : World) (srcs : list string) (target : string) :
  (merge_docx_files w srcs target).1 = w ∨
  ∃ doc, compose w srcs = Returned doc ∧
         (merge_docx_files w srcs target).1 = (save w doc target).1.
Proof.
  unfold merge_docx_files. destruct (bool_decide (srcs = [])); [by left|].
  destruct (length srcs <? 1)%nat; [by left|].
  destruct (compose w srcs) as [doc|e]; [|by left].
  right. exists doc. split; [done|].
  by destruct (save w doc target) as [w' [[]|e]].
Qed.

End EngineFacts.

(** C1.  For a non-empty list of paths that all open, and whose documents
    the library appends without raising, the engine composes the bodies of the
    documents in the order of the list, a page break before the body of every
    document but the first, and hands that one document to [save] for the
    target, once; the message it returns is that of the save.  The list is
    taken as the caller gives it.  The page breaks of the result are those of
    the sources and one for each document after the first; for a single path
    the result is the body of that document. *)
Theorem merge_concatenates_in_order `{Platform} (w : World) (first : string)
    (rest : list string) (body : document) (bodies : list document)
    (target : string) :
  opens w first body → Forall2 (opens w) rest bodies →
  appends_return body bodies →
  let merged := body ++ with_breaks bodies in
  compose w (first :: rest) = Returned merged ∧
  merge_docx_files w (first :: rest) target =
    (let '(w', saved) := save w merged target in
     (w', match saved with
          | Returned _ => msg_success (length (first :: rest)) target
          | Raised e => msg_failure e
          end)) ∧
  page_breaks merged = page_breaks (body ++ concat bodies) + length rest ∧
  (rest = [] → merged = body).
Proof.
  intros Hfirst Hrest Happ merged.
  pose proof (compose_readable w first rest body bodies Hfirst Hrest Happ)
    as Hc.
  split; [done|]. split; [|split].
  - by apply merge_compose_returned.
  - subst merged. rewrite !page_breaks_app, page_breaks_with_breaks.
    apply Forall2_length in Hrest. lia.
  - intros ->. apply Forall2_nil_inv_l in Hrest as ->. subst merged.
    unfold with_breaks. simpl. by rewrite app_nil_r.
Qed.

(** On the sample folder, b.docx then a.docx: the order of the list, not of
    the names. *)
Lemma merge_concatenates_in_order_witness :
  let w := Disk.sample in
  let merged := [Block "b1"; PageBreak; Block "a1"; Block "a2"] in
  opens w "/in/b.docx" [Block "b1"] ∧
  Forall2 (opens w) ["/in/a.docx"] [[Block "a1"; Block "a2"]] ∧
  appends_return (H := Disk.posix) [Block "b1"] [[Block "a1"; Block "a2"]] ∧
  compose w ["/in/b.docx"; "/in/a.docx"] = Returned merged ∧
  merge_docx_files w ["/in/b.docx"; "/in/a.docx"] "/out/m.docx" =
    ((Disk.disk_save w merged "/out/m.docx").1,
     msg_success 2 "/out/m.docx") ∧
  Disk.files (merge_docx_files w ["/in/b.docx"; "/in/a.docx"] "/out/m.docx").1
    !! "/out/m.docx" = Some (Disk.Docx merged).
Proof.
  intros w merged.
  assert (opens w "/in/b.docx" [Block "b1"]) as Hb by reflexivity.
  assert (Forall2 (opens w) ["/in/a.docx"] [[Block "a1"; Block "a2"]]) as Ha
    by (repeat constructor).
  assert (appends_return (H := Disk.posix) [Block "b1"]
            [[Block "a1"; Block "a2"]]) as Happ
    by (repeat split; reflexivity).
  destruct (merge_concatenates_in_order (H := Disk.posix) w "/in/b.docx"
              ["/in/a.docx"] [Block "b1"] [[Block "a1"; Block "a2"]]
              "/out/m.docx" Hb Ha Happ)
    as (Hc & Hm & _).
  split; [exact Hb|]. split; [exact Ha|]. split; [exact Happ|].
  split; [exact Hc|].
  rewrite Hm. split; reflexivity.
Defined.

(** C2.  When some path of the list does not open, the engine returns the
    failure message, carrying the text of the exception that stopped it, and
    the file system is the one it was called on: nothing was written at the
    target.  The same holds for every exception raised before the save is
    reached. *)
Theorem merge_unreadable_source_fails `{Platform} (w : World)
    (srcs : list string) (target p e : string) :
  p ∈ srcs → Document w p = Raised e →
  (∃ e', compose w srcs = Raised e' ∧
     merge_docx_files w srcs target = (w, msg_failure e') ∧
     ∀ n t, msg_failure e' ≠ msg_success n t) ∧
  (∀ e0, compose w srcs = Raised e0 →
     merge_docx_files w srcs target = (w, msg_failure e0)).
Proof.
  intros Hin Hp.
  assert (srcs ≠ []) as Hne by (intros ->; by apply elem_of_nil in Hin).
  split; [|intros e0; by apply merge_compose_raised].
  destruct (compose_raises_on_unreadable w srcs p e Hin Hp) as [e' He'].
  exists e'. split; [done|].
  split; [by apply merge_compose_raised | apply msg_failure_not_success].
Qed.

(** notes.txt among the sources: it does not open, and the target is not
    created. *)
Lemma merge_unreadable_source_fails_witness :
  let w := Disk.sample in
  let srcs := ["/in/a.docx"; "/in/notes.txt"; "/in/b.docx"] in
  "/in/notes.txt" ∈ srcs ∧
  Document w "/in/notes.txt" = Raised "Package not found at '/in/notes.txt'" ∧
  (∃ e', compose w srcs = Raised e' ∧
     merge_docx_files w srcs "/out/m.docx" = (w, msg_failure e') ∧
     ∀ n t, msg_failure e' ≠ msg_success n t) ∧
  Disk.files (merge_docx_files w srcs "/out/m.docx").1 !! "/out/m.docx" = None.
Proof.
  intros w srcs.
  assert ("/in/notes.txt" ∈ srcs) as Hin
    by (apply list_elem_of_In; right; left; reflexivity).
  assert (Document w "/in/notes.txt"
          = Raised "Package not found at '/in/notes.txt'") as Hp by reflexivity.
  destruct (merge_unreadable_source_fails (H := Disk.posix) w srcs
              "/out/m.docx" _ _ Hin Hp) as [Hfails _].
  split; [exact Hin|]. split; [exact Hp|]. split; [exact Hfails|].
  destruct Hfails as (e' & _ & Hm & _). rewrite Hm. reflexivity.
Defined.

(** C3.  For the empty list the engine returns the message that no .docx
    file was found to merge, which is not a success message, and the file
    system is the one it was called on: nothing is written. *)
Theorem merge_empty_list `{Platform} (w : World) (target : string) :
  merge_docx_files w [] target = (w, msg_no_files) ∧
  (∀ n t, msg_no_files ≠ msg_success n t) ∧
  Py.contains msg_no_files "成功" = false.
Proof.
  split; [reflexivity|]. split; [|reflexivity].
  intros n t. unfold msg_no_files, msg_success. simpl. discriminate.
Qed.

(** C5, as the code has it.  When some path of the list does not open, the
    engine returns the failure message made of its fixed heading, a line feed
    and the text of the first exception raised, with nothing added: no path of
    its own.  That exception is the one of the library for the path that does
    not open when this path is the first of the list, and when the paths
    before it compose and the page break is appended after them. *)
Theorem merge_reports_first_exception `{Platform} (w : World)
    (srcs : list string) (p e target : string) :
  p ∈ srcs → Document w p = Raised e →
  (∃ e', compose w srcs = Raised e' ∧
     merge_docx_files w srcs target
     = (w, "合并过程中发生错误：" +:+ Py.nl +:+ e') ∧
     Py.contains (merge_docx_files w srcs target).2 e' = true) ∧
  (∀ post, srcs = p :: post →
     merge_docx_files w srcs target
     = (w, "合并过程中发生错误：" +:+ Py.nl +:+ e)) ∧
  (∀ first pre post doc,
     srcs = (first :: pre) ++ p :: post →
     compose w (first :: pre) = Returned doc →
     append_raises doc page_break_doc = None →
     merge_docx_files w srcs target
     = (w, "合并过程中发生错误：" +:+ Py.nl +:+ e)).
Proof.
  intros Hin Hp.
  assert (srcs ≠ []) as Hne by (intros ->; by apply elem_of_nil in Hin).
  split; [|split].
  - destruct (compose_raises_on_unreadable w srcs p e Hin Hp) as [e' He'].
    exists e'. split; [done|].
    rewrite (merge_compose_raised w srcs target e' Hne He').
    split; [done|]. unfold msg_failure. cbn [snd].
    apply (PyFacts.contains_app_r "合并过程中发生错误：").
    apply PyFacts.contains_app_r, PyFacts.contains_self.
  - intros post ->. apply merge_compose_raised; [done|].
    by rewrite compose_cons, Hp.
  - intros first pre post doc -> Hpre Hbreak.
    apply merge_compose_raised; [done|].
    by apply (compose_unreadable_next w first pre post doc).
Qed.

(** A file that is not there, after one that opens: python-docx names the
    path itself. *)
Lemma merge_reports_first_exception_witness :
  let w := Disk.sample in
  let e := "Package not found at '/in/z.docx'" in
  let srcs := ["/in/a.docx"; "/in/z.docx"; "/in/b.docx"] in
  "/in/z.docx" ∈ srcs ∧
  Document w "/in/z.docx" = Raised e ∧
  compose w ["/in/a.docx"] = Returned [Block "a1"; Block "a2"] ∧
  merge_docx_files w srcs "/out/m.docx" = (w, msg_failure e) ∧
  Py.contains (msg_failure e) "/in/z.docx" = true.
Proof.
  intros w e srcs.
  assert ("/in/z.docx" ∈ srcs) as Hin
    by (apply list_elem_of_In; right; left; reflexivity).
  assert (Document w "/in/z.docx" = Raised e) as Hz by reflexivity.
  assert (compose w ["/in/a.docx"] = Returned [Block "a1"; Block "a2"])
    as Ha by reflexivity.
  destruct (merge_reports_first_exception (H := Disk.posix) w srcs
              "/in/z.docx" e "/out/m.docx" Hin Hz) as (_ & _ & Hafter).
  split; [exact Hin|]. split; [exact Hz|]. split; [exact Ha|].
  split; [|reflexivity].
  exact (Hafter "/in/a.docx" [] ["/in/b.docx"] _ eq_refl Ha eq_refl).
Defined.

(** A source with a corrupted archive: the message has the diagnostic of the
    library and does not name the file that could not be opened. *)
Lemma failure_message_without_path :
  let w := Disk.corrupted in
  let message :=
    (merge_docx_files w ["/in/a.docx"; "/in/b.docx"] "/out/m.docx").2 in
  Document w "/in/b.docx" = Raised "Bad magic number for central directory" ∧
  message = msg_failure "Bad magic number for central directory" ∧
  Py.contains message "/in/b.docx" = false ∧
  Py.contains message "b.docx" = false.
Proof. repeat split; reflexivity. Qed.

(** C10.  The engine never returns the message of its second guard: when
    that guard is reached the list is not empty, so its test is false, and
    no other message of the engine equals it. *)
Theorem second_guard_unreachable `{Platform} (w : World)
    (srcs : list string) (target : string) :
  (merge_docx_files w srcs target).2 ≠ msg_at_least_one ∧
  (bool_decide (srcs = []) = false → (length srcs <? 1)%nat = false).
Proof.
  split.
  - unfold merge_docx_files. destruct srcs as [|p srcs].
    + simpl. unfold msg_no_files, msg_at_least_one. discriminate.
    + rewrite bool_decide_eq_false_2 by done.
      change (length (p :: srcs) <? 1)%nat with false. cbv iota.
      destruct (compose w (p :: srcs)) as [composer|e]; simpl.
      * destruct (save w composer target) as [w' [[]|e]]; simpl;
          unfold msg_success, msg_failure, msg_at_least_one; simpl;
          discriminate.
      * unfold msg_failure, msg_at_least_one. simpl. discriminate.
  - intros Hne. apply bool_decide_eq_false in Hne.
    destruct srcs as [|p srcs]; [done | reflexivity].
Qed.

(** ** The shell *)

Section ShellFacts.
Context `{Platform}.

Lemma success_contains_marker (n : nat) (target : string) :
  Py.contains (msg_success n target) "成功" = true.
Proof. unfold msg_success. by apply PyFacts.contains_app_l. Qed.

Lemma success_contains_count (n : nat) (target : string) :
  Py.contains (msg_success n target) (Py.str n) = true.
Proof.
  unfold msg_success. apply PyFacts.contains_app_r, PyFacts.contains_app_l.
  apply PyFacts.contains_self.
Qed.

Lemma success_contains_target (n : nat) (target : string) :
  Py.contains (msg_success n target) target = true.
Proof.
  unfold msg_success. do 4 apply PyFacts.contains_app_r.
  apply PyFacts.contains_self.
Qed.

Lemma report_marked (message : string) :
  Py.contains message "成功" = true →
  report message
  = [showinfo "合并完成" message; status_set (Py.replace_nl message)].
Proof. intros Hm. unfold report. by rewrite Hm. Qed.

Lemma report_unmarked (message : string) :
  Py.contains message "成功" = false →
  report message
  = [showerror "合并失败" message; status_set (Py.replace_nl message)].
Proof. intros Hm. unfold report. by rewrite Hm. Qed.

End ShellFacts.

(** C8.  When the engine has composed the sources, so that the list is not
    empty, every path opened and every append returned, and the save
    succeeds, the engine returns the success message, which carries the number
    of sources and the target path as it was given; the shell shows that
    message in its information dialog and mirrors it in the status line. *)
Theorem merge_success_reported `{Platform} (w w' : World)
    (srcs : list string) (doc : document) (target : string) (u : unit) :
  compose w srcs = Returned doc →
  save w doc target = (w', Returned u) →
  let message := msg_success (length srcs) target in
  srcs ≠ [] ∧
  Forall (λ p, ∃ body, Document w p = Returned body) srcs ∧
  merge_docx_files w srcs target = (w', message) ∧
  Py.contains message (Py.str (length srcs)) = true ∧
  Py.contains message target = true ∧
  report message
  = [showinfo "合并完成" message; status_set (Py.replace_nl message)] ∧
  (∀ input_path output_path output_filename listing,
     listdir w input_path = Returned listing →
     select_sources input_path listing = srcs →
     path_join output_path output_filename = target →
     scan_and_merge w input_path output_path output_filename
     = (w', [status_set "正在合并文档..."; update_idletasks;
             merge_called srcs target;
             showinfo "合并完成" message;
             status_set (Py.replace_nl message)])).
Proof.
  intros Hdoc Hsave message.
  pose proof (compose_nonempty w srcs doc Hdoc) as Hne.
  assert (merge_docx_files w srcs target = (w', message)) as Hm
    by (rewrite (merge_compose_returned w srcs target doc Hdoc);
        by rewrite Hsave).
  assert (report message
          = [showinfo "合并完成" message; status_set (Py.replace_nl message)])
    as Hr by apply report_marked, success_contains_marker.
  split; [done|]. split; [by eapply compose_returned_all_open|].
  split; [done|]. split; [apply success_contains_count|].
  split; [apply success_contains_target|]. split; [done|].
  intros input_path output_path output_filename listing Hls Hsel Hjoin.
  unfold scan_and_merge. rewrite Hls, Hsel, Hjoin.
  rewrite bool_decide_eq_false_2 by done. by rewrite Hm, Hr.
Qed.

(** The three documents of the sample folder, merged into /out/m.docx. *)
Lemma merge_success_reported_witness :
  let w := Disk.sample in
  let srcs := ["/in/C.DOCX"; "/in/a.docx"; "/in/b.docx"] in
  let merged := [PageBreak; Block "c1"; PageBreak; Block "a1"; Block "a2";
                 PageBreak; Block "b1"] in
  let w' := (Disk.disk_save w merged "/out/m.docx").1 in
  compose w srcs = Returned merged ∧
  save w merged "/out/m.docx" = (w', Returned ()) ∧
  merge_docx_files w srcs "/out/m.docx" = (w', msg_success 3 "/out/m.docx") ∧
  start_merge_process w {| input_dir_var := "/in"; output_dir_var := "/out";
                           output_filename_var := "m" |}
  = (w', [status_set "正在合并文档..."; update_idletasks;
          merge_called srcs "/out/m.docx";
          showinfo "合并完成" (msg_success 3 "/out/m.docx");
          status_set "成功：3 个文档已合并到 /out/m.docx"]).
Proof.
  intros w srcs merged w'.
  assert (compose w srcs = Returned merged) as Hc by reflexivity.
  assert (save w merged "/out/m.docx" = (w', Returned ())) as Hs
    by reflexivity.
  destruct (merge_success_reported (H := Disk.posix) w w' srcs merged
              "/out/m.docx" () Hc Hs)
    as (_ & _ & Hm & _ & _ & _ & Hshell).
  split; [exact Hc|]. split; [exact Hs|]. split; [exact Hm|].
  exact (Hshell "/in" "/out" "m.docx" _ eq_refl eq_refl eq_refl).
Defined.

(** C9.  The shell takes a message for a success exactly when 成功 occurs
    somewhere in it: then the message goes to the information dialog, and
    otherwise to the error dialog.  So a failure whose diagnostic has 成功 in
    it is shown as a success: with the output folder /成功 and a target that
    cannot be written, the save fails, the engine returns its failure message
    with the path in it, and the shell shows it in the information dialog. *)
Theorem report_classifies_by_substring :
  (∀ message : string,
     (Py.contains message "成功" = true ↔
      ∃ pre post, message = pre +:+ "成功" +:+ post) ∧
     (Py.contains message "成功" = true ↔
      report message
      = [showinfo "合并完成" message; status_set (Py.replace_nl message)]) ∧
     (Py.contains message "成功" = false ↔
      report message
      = [showerror "合并失败" message; status_set (Py.replace_nl message)])) ∧
  let w := Disk.locked in
  let target := "/成功/merged_document.docx" in
  let message := msg_failure (Disk.permission_denied target) in
  compose (H := Disk.posix) w ["/in/a.docx"] = Returned [Block "a1"] ∧
  save w [Block "a1"] target = (w, Raised (Disk.permission_denied target)) ∧
  merge_docx_files w ["/in/a.docx"] target = (w, message) ∧
  start_merge_process w {| input_dir_var := "/in"; output_dir_var := "/成功";
                           output_filename_var := "merged_document.docx" |}
  = (w, [status_set "正在合并文档..."; update_idletasks;
         merge_called ["/in/a.docx"] target;
         showinfo "合并完成" message;
         status_set (Py.replace_nl message)]).
Proof.
  split; [|repeat split; reflexivity].
  intros message. split; [apply PyFacts.contains_spec|].
  unfold report. destruct (Py.contains message "成功"); split; split;
    (done || discriminate).
Qed.



(** * More of the engine *)

(** X1.  When the engine reaches its save, every path of the list has
    opened and every append of the loop has returned; and when some path of
    the list does not open, the engine raises before its save. *)
Theorem compose_returns_only_if_all_open `{Platform} (w : World)
    (first : string) (rest : list string) :
  (∀ doc, compose w (first :: rest) = Returned doc →
     Forall (λ p, ∃ body, Document w p = Returned body) (first :: rest) ∧
     ∃ body bodies, opens w first body ∧ Forall2 (opens w) rest bodies ∧
                    appends_return body bodies ∧
                    doc = body ++ with_breaks bodies) ∧
  (Exists (λ p, ∃ e, Document w p = Raised e) (first :: rest) →
   ∃ e, compose w (first :: rest) = Raised e).
Proof.
  split.
  - intros doc Hdoc. split; [by eapply compose_returned_all_open|].
    by apply compose_returned_inv.
  - intros (p & Hp & e & He)%Exists_exists.
    by eapply compose_raises_on_unreadable.
Qed.

(** X2.  When the engine has composed the sources and the save raises, the
    engine returns the failure message with the diagnostic of the save, under
    the same heading as for a source that does not open, and the file system
    is the one the save left. *)
Theorem merge_save_failure `{Platform} (w w' : World) (srcs : list string)
    (doc : document) (target e : string) :
  compose w srcs = Returned doc →
  save w doc target = (w', Raised e) →
  merge_docx_files w srcs target
  = (w', "合并过程中发生错误：" +:+ Py.nl +:+ e).
Proof.
  intros Hdoc Hsave.
  rewrite (merge_compose_returned w srcs target doc Hdoc). by rewrite Hsave.
Qed.

(** Two sources and a target that cannot be written. *)
Lemma merge_save_failure_witness :
  let w := Disk.sealed in
  let e := Disk.permission_denied "/srv/out" in
  let srcs := ["/in/a.docx"; "/in/a.docx"] in
  let doc := [Block "a1"; PageBreak; Block "a1"] in
  compose w srcs = Returned doc ∧
  save w doc "/srv/out" = (w, Raised e) ∧
  merge_docx_files w srcs "/srv/out" = (w, msg_failure e).
Proof.
  intros w e srcs doc.
  assert (compose w srcs = Returned doc) as Hc by reflexivity.
  assert (save w doc "/srv/out" = (w, Raised e)) as Hs by reflexivity.
  split; [exact Hc|]. split; [exact Hs|].
  exact (merge_save_failure (H := Disk.posix) w w srcs doc "/srv/out" e Hc Hs).
Defined.

(** X3.  The engine returns a success message only after a save that
    returned: every path opened, the composed document was handed to [save]
    for the target, and the file system is the one that save left. *)
Theorem merge_success_only_after_save `{Platform} (w : World)
    (srcs : list string) (target : string) (n : nat) (t : string) :
  (merge_docx_files w srcs target).2 = msg_success n t →
  ∃ doc u, compose w srcs = Returned doc ∧
           save w doc target = ((merge_docx_files w srcs target).1, Returned u) ∧
           Forall (λ p, ∃ body, Document w p = Returned body) srcs.
Proof.
  unfold merge_docx_files. destruct srcs as [|first rest].
  - simpl. unfold msg_no_files, msg_success. simpl. discriminate.
  - rewrite bool_decide_eq_false_2 by done.
    change (length (first :: rest) <? 1)%nat with false. cbv iota.
    destruct (compose w (first :: rest)) as [doc|e] eqn:Hc.
    + destruct (save w doc target) as [w' [u|e]] eqn:Hs; simpl.
      * intros _. exists doc, u. split; [done|]. split; [done|].
        by eapply compose_returned_all_open.
      * unfold msg_failure, msg_success. simpl. discriminate.
    + simpl. unfold msg_failure, msg_success. simpl. discriminate.
Qed.

Lemma merge_success_only_after_save_witness :
  let w := Disk.sample in
  let srcs := ["/in/b.docx"; "/in/a.docx"] in
  (merge_docx_files w srcs "/out/m.docx").2 = msg_success 2 "/out/m.docx" ∧
  ∃ doc u, compose w srcs = Returned doc ∧
           save w doc "/out/m.docx"
           = ((merge_docx_files w srcs "/out/m.docx").1, Returned u) ∧
           Forall (λ p, ∃ body, Document w p = Returned body) srcs.
Proof.
  intros w srcs.
  assert ((merge_docx_files w srcs "/out/m.docx").2
          = msg_success 2 "/out/m.docx") as Hm by reflexivity.
  split; [exact Hm|].
  exact (merge_success_only_after_save (H := Disk.posix) w srcs "/out/m.docx"
           2 "/out/m.docx" Hm).
Defined.

(** X4.  Merging in batches composes: when two non-empty lists each compose
    to a document, and the two lists one after the other compose as well,
    then they compose to the first document, a page break, and the second
    document. *)
Theorem compose_batches `{Platform} (w : World) (first1 first2 : string)
    (rest1 rest2 : list string) (doc1 doc2 doc : document) :
  compose w (first1 :: rest1) = Returned doc1 →
  compose w (first2 :: rest2) = Returned doc2 →
  compose w ((first1 :: rest1) ++ first2 :: rest2) = Returned doc →
  doc = doc1 ++ PageBreak :: doc2.
Proof.
  intros (body1 & bodies1 & Hf1 & Hr1 & _ & ->)%compose_returned_inv
         (body2 & bodies2 & Hf2 & Hr2 & _ & ->)%compose_returned_inv.
  rewrite <- app_comm_cons.
  intros (body & bodies & Hf & Hr & _ & ->)%compose_returned_inv.
  assert (body = body1) as -> by (unfold opens in *; congruence).
  assert (bodies = bodies1 ++ body2 :: bodies2) as ->.
  { apply (opens_functional w (rest1 ++ first2 :: rest2)); [done|].
    apply Forall2_app; [done | by constructor]. }
  rewrite with_breaks_app, with_breaks_cons. simpl.
  by rewrite <- app_assoc.
Qed.

Lemma compose_batches_witness :
  let w := Disk.sample in
  let doc1 := [Block "a1"; Block "a2"] in
  let doc2 := [Block "b1"; PageBreak; PageBreak; Block "c1"] in
  let doc := [Block "a1"; Block "a2"; PageBreak;
              Block "b1"; PageBreak; PageBreak; Block "c1"] in
  compose w ["/in/a.docx"] = Returned doc1 ∧
  compose w ["/in/b.docx"; "/in/C.DOCX"] = Returned doc2 ∧
  compose w (["/in/a.docx"] ++ ["/in/b.docx"; "/in/C.DOCX"]) = Returned doc ∧
  doc = doc1 ++ PageBreak :: doc2.
Proof.
  intros w doc1 doc2 doc.
  assert (compose w ["/in/a.docx"] = Returned doc1) as H1 by reflexivity.
  assert (compose w ["/in/b.docx"; "/in/C.DOCX"] = Returned doc2) as H2
    by reflexivity.
  assert (compose w (["/in/a.docx"] ++ ["/in/b.docx"; "/in/C.DOCX"])
          = Returned doc) as H3 by reflexivity.
  split; [exact H1|]. split; [exact H2|]. split; [exact H3|].
  exact (compose_batches (H := Disk.posix) w "/in/a.docx" "/in/b.docx" []
           ["/in/C.DOCX"] doc1 doc2 doc H1 H2 H3).
Defined.

(** X14.  When the sources so far have composed and [composer.append]
    raises, on the page break or on the next document although it opens, the
    engine returns the failure message with the text of that exception, and
    the file system is the one it was called on: nothing is written, and the
    sources after it play no part. *)
Theorem merge_append_failure `{Platform} (w : World) (first next : string)
    (pre post : list string) (doc body : document) (e target : string) :
  compose w (first :: pre) = Returned doc →
  append_raises doc page_break_doc = Some e ∨
  (append_raises doc page_break_doc = None ∧ opens w next body ∧
   append_raises (doc ++ page_break_doc) body = Some e) →
  merge_docx_files w ((first :: pre) ++ next :: post) target
  = (w, "合并过程中发生错误：" +:+ Py.nl +:+ e).
Proof.
  intros Hpre Hraises. apply merge_compose_raised; [done|].
  rewrite compose_app, Hpre. cbn [length seq foldl].
  rewrite append_source_returned.
  destruct Hraises as [-> | (-> & Hnext & Happ)]; [apply foldl_raised|].
  replace (((first :: pre) ++ next :: post) !! S (length pre))
    with (Some next)
    by (symmetry; apply (list_lookup_middle (first :: pre)); done).
  rewrite Hnext, Happ. apply foldl_raised.
Qed.

(** h.docx opens and refers to a relationship it does not have. *)
Lemma merge_append_failure_witness :
  let w := Cases.unappendable in
  let body := [Block "h1"; Disk.dangling] in
  compose w ["/in/a.docx"] = Returned [Block "a1"] ∧
  (append_raises (Platform := Disk.posix) [Block "a1"] page_break_doc = None ∧
   opens w "/in/h.docx" body ∧
   append_raises (Platform := Disk.posix) ([Block "a1"] ++ page_break_doc) body
   = Some "'rId99'") ∧
  merge_docx_files w ["/in/a.docx"; "/in/h.docx"] "/out/m.docx"
  = (w, msg_failure "'rId99'").
Proof.
  intros w body.
  assert (compose w ["/in/a.docx"] = Returned [Block "a1"]) as Ha
    by reflexivity.
  assert (append_raises (Platform := Disk.posix) [Block "a1"] page_break_doc = None ∧
          opens w "/in/h.docx" body ∧
          append_raises (Platform := Disk.posix) ([Block "a1"] ++ page_break_doc) body
          = Some "'rId99'") as Hh by (repeat split; reflexivity).
  split; [exact Ha|]. split; [exact Hh|].
  exact (merge_append_failure (H := Disk.posix) w "/in/a.docx" "/in/h.docx"
           [] [] _ body "'rId99'" "/out/m.docx" Ha (or_intror Hh)).
Defined.

(** * More of the shell *)

Section ShellMore.
Context `{Platform}.

Lemma sorted_of_permutation (names1 names2 : list string) :
  names1 ≡ₚ names2 → Py.sorted names1 = Py.sorted names2.
Proof.
  intros Hperm. apply (Sorted_unique String.le).
  - apply PyFacts.Sorted_sorted.
  - apply PyFacts.Sorted_sorted.
  - by rewrite !PyFacts.sorted_Permutation.
Qed.

(** The three ways the scan of the input folder ends. *)
Lemma scan_and_merge_cases (w : World) (input_path output_path
    output_filename : string) :
  let run := scan_and_merge w input_path output_path output_filename in
  let target_file := path_join output_path output_filename in
  (∃ e, listdir w input_path = Raised e ∧
        run = (w, [showerror "错误" ("读取输入文件夹时出错：" +:+ Py.nl +:+ e)])) ∨
  (∃ listing, listdir w input_path = Returned listing ∧
        select_sources input_path listing = [] ∧
        run = (w, [showinfo "提示" "在输入文件夹中没有找到 .docx 文件。";
                   status_set "未找到 .docx 文件。"])) ∨
  (∃ listing, listdir w input_path = Returned listing ∧
        let source_files := select_sources input_path listing in
        let result := merge_docx_files w source_files target_file in
        source_files ≠ [] ∧
        run = (result.1,
               [status_set "正在合并文档..."; update_idletasks;
                merge_called source_files target_file] ++ report result.2)).
Proof.
  intros run target_file. subst run. unfold scan_and_merge.
  destruct (listdir w input_path) as [listing|e]; [|left; eauto].
  right. case_bool_decide as Hsel; [left; eauto|].
  right. exists listing. split; [done|]. fold target_file.
  destruct (merge_docx_files w (select_sources input_path listing) target_file)
    as [w' message].
  by split.
Qed.

(** The four ways a run of the handler goes before that scan. *)
Lemma start_merge_process_cases (w : World) (self : form) :
  let input_path := input_dir_var self in
  let output_path := output_dir_var self in
  let output_filename := normalize_filename (output_filename_var self) in
  let run := start_merge_process w self in
  (isdir w input_path = false ∧
   run = (w, [showerror "错误" ("输入文件夹不存在：" +:+ Py.nl +:+ input_path)])) ∨
  (isdir w input_path = true ∧ isdir w output_path = false ∧
   ∃ e, (makedirs w output_path).2 = Raised e ∧
        run = ((makedirs w output_path).1,
               [makedirs_called output_path;
                showerror "错误" ("无法创建输出文件夹：" +:+ Py.nl +:+ output_path
                                  +:+ Py.nl +:+ e)])) ∨
  (isdir w input_path = true ∧ isdir w output_path = false ∧
   ∃ u, (makedirs w output_path).2 = Returned u ∧
        let scan := scan_and_merge (makedirs w output_path).1 input_path
                                   output_path output_filename in
        run = (scan.1, makedirs_called output_path :: scan.2)) ∨
  (isdir w input_path = true ∧ isdir w output_path = true ∧
   run = scan_and_merge w input_path output_path output_filename).
Proof.
  intros input_path output_path output_filename run.
  subst run input_path output_path output_filename.
  unfold start_merge_process.
  destruct (isdir w (input_dir_var self)); simpl; [|by left].
  right. destruct (isdir w (output_dir_var self)); simpl; [by do 2 right|].
  destruct (makedirs w (output_dir_var self)) as [w1 [u|e]]; simpl.
  - right. left. split; [done|]. split; [done|]. exists u. split; [done|].
    by destruct (scan_and_merge w1 _ _ _).
  - left. split; [done|]. split; [done|]. by exists e.
Qed.

Lemma replace_nl_no_line_feed (s : string) :
  Py.contains (Py.replace_nl s) Py.nl = false.
Proof.
  induction s as [|c s IH]; [done|].
  cbn [Py.replace_nl Py.contains]. rewrite IH, orb_false_r.
  unfold Py.nl. cbn [String.prefix].
  destruct (Ascii.eqb_spec c (ascii_of_nat 10)) as [->|Hc].
  - done.
  - destruct (ascii_dec (ascii_of_nat 10) c) as [<-|]; done.
Qed.

Lemma replace_nl_length (s : string) :
  String.length (Py.replace_nl s) = String.length s.
Proof. induction s as [|c s IH]; simpl; [done | by rewrite IH]. Qed.

End ShellMore.

(** X5.  The selection does not depend on the order in which [os.listdir]
    gives the names: two listings of the same names yield the same list of
    sources, in the same order. *)
Theorem select_sources_listing_order `{Platform} (input_path : string)
    (listing1 listing2 : list string) :
  listing1 ≡ₚ listing2 →
  select_sources input_path listing1 = select_sources input_path listing2.
Proof.
  intros Hperm. unfold select_sources.
  by rewrite (sorted_of_permutation listing1 listing2).
Qed.

Lemma select_sources_listing_order_witness :
  ["b.docx"; "notes.txt"; "a.docx"] ≡ₚ ["a.docx"; "b.docx"; "notes.txt"] ∧
  select_sources (H := Disk.posix) "/in" ["b.docx"; "notes.txt"; "a.docx"]
  = select_sources (H := Disk.posix) "/in" ["a.docx"; "b.docx"; "notes.txt"].
Proof.
  assert (["b.docx"; "notes.txt"; "a.docx"]
          ≡ₚ ["a.docx"; "b.docx"; "notes.txt"]) as Hperm.
  { etransitivity; [apply Permutation_skip, Permutation_swap|].
    apply Permutation_swap. }
  split; [exact Hperm|].
  exact (select_sources_listing_order (H := Disk.posix) "/in" _ _ Hperm).
Defined.

(** X6.  When the input folder is not a directory, the handler shows the
    error dialog with the path of that folder and does nothing else: the
    output folder is not created even when it is missing, the engine is not
    called, and the file system is as it was. *)
Theorem input_folder_missing `{Platform} (w : World) (self : form) :
  isdir w (input_dir_var self) = false →
  start_merge_process w self
  = (w, [showerror "错误"
           ("输入文件夹不存在：" +:+ Py.nl +:+ input_dir_var self)]) ∧
  (∀ path, makedirs_called path ∉ (start_merge_process w self).2) ∧
  (∀ srcs target, merge_called srcs target ∉ (start_merge_process w self).2).
Proof.
  intros Hin.
  assert (start_merge_process w self
          = (w, [showerror "错误"
                   ("输入文件夹不存在：" +:+ Py.nl +:+ input_dir_var self)]))
    as Hrun by (unfold start_merge_process; by rewrite Hin).
  rewrite Hrun. split; [done|].
  split; intros; simpl; intros [|Hmem%elem_of_nil]%elem_of_cons; done.
Qed.

Lemma input_folder_missing_witness :
  let w := Disk.sample in
  let self := {| input_dir_var := "/nowhere"; output_dir_var := "/new";
                 output_filename_var := "m" |} in
  isdir w "/nowhere" = false ∧
  isdir w "/new" = false ∧
  start_merge_process w self
  = (w, [showerror "错误" ("输入文件夹不存在：" +:+ Py.nl +:+ "/nowhere")]).
Proof.
  intros w self.
  assert (isdir w (input_dir_var self) = false) as Hin by reflexivity.
  split; [exact Hin|]. split; [reflexivity|].
  exact (proj1 (input_folder_missing (H := Disk.posix) w self Hin)).
Defined.

(** X7.  When both folders exist and no name of the input folder ends with
    ".docx" compared without regard to case, the handler shows the information
    dialog that no .docx file was found and sets the status line to the same
    effect; the engine is not called and the file system is as it was. *)
Theorem no_eligible_files `{Platform} (w : World) (self : form)
    (listing : list string) :
  isdir w (input_dir_var self) = true →
  isdir w (output_dir_var self) = true →
  listdir w (input_dir_var self) = Returned listing →
  Forall (λ name, Py.endswith (Py.lower name) ".docx" = false) listing →
  start_merge_process w self
  = (w, [showinfo "提示" "在输入文件夹中没有找到 .docx 文件。";
         status_set "未找到 .docx 文件。"]).
Proof.
  intros Hin Hout Hls Hnone. unfold start_merge_process.
  rewrite Hin, Hout. simpl. unfold scan_and_merge. rewrite Hls.
  assert (select_sources (input_dir_var self) listing = []) as ->; [|done].
  rewrite select_sources_filter.
  assert (filter (λ n, Py.endswith (Py.lower n) ".docx") (Py.sorted listing)
          = []) as ->; [|done].
  apply elem_of_nil_inv. intros name [Hext Hname]%list_elem_of_filter.
  rewrite PyFacts.sorted_Permutation in Hname.
  eapply Forall_forall in Hnone; [|done]. by rewrite Hnone in Hext.
Qed.

Lemma no_eligible_files_witness :
  let w := Cases.only_text in
  let self := {| input_dir_var := "/in"; output_dir_var := "/out";
                 output_filename_var := "m" |} in
  isdir w "/in" = true ∧ isdir w "/out" = true ∧
  listdir w "/in" = Returned ["notes.txt"; "docx"; "a.doc"] ∧
  Forall (λ name, Py.endswith (Py.lower name) ".docx" = false)
         ["notes.txt"; "docx"; "a.doc"] ∧
  start_merge_process w self
  = (w, [showinfo "提示" "在输入文件夹中没有找到 .docx 文件。";
         status_set "未找到 .docx 文件。"]).
Proof.
  intros w self.
  assert (isdir w (input_dir_var self) = true) as Hin by reflexivity.
  assert (isdir w (output_dir_var self) = true) as Hout by reflexivity.
  assert (listdir w (input_dir_var self)
          = Returned ["notes.txt"; "docx"; "a.doc"]) as Hls by reflexivity.
  assert (Forall (λ name, Py.endswith (Py.lower name) ".docx" = false)
                 ["notes.txt"; "docx"; "a.doc"]) as Hnone
    by (repeat constructor).
  split; [exact Hin|]. split; [exact Hout|]. split; [exact Hls|].
  split; [exact Hnone|].
  exact (no_eligible_files (H := Disk.posix) w self _ Hin Hout Hls Hnone).
Defined.



(** X9.  The handler calls the engine only on a non-empty list of sources
    and only for the target made of the output folder and the normalized file
    name.  The sources are the selection from a listing that [os.listdir]
    returned for the input folder, on the file system the handler started on
    or the one after its [os.makedirs]: each source is a name of that listing
    that ends with ".docx" without regard to case, joined with the input
    folder. *)
Theorem engine_called_on_selection `{Platform} (w : World) (self : form)
    (srcs : list string) (target : string) :
  merge_called srcs target ∈ (start_merge_process w self).2 →
  srcs ≠ [] ∧
  target = path_join (output_dir_var self)
                     (normalize_filename (output_filename_var self)) ∧
  ∃ w1 listing,
    (w1 = w ∨ w1 = (makedirs w (output_dir_var self)).1) ∧
    listdir w1 (input_dir_var self) = Returned listing ∧
    srcs = select_sources (input_dir_var self) listing ∧
    Forall (λ src, ∃ name, name ∈ listing ∧
                           src = path_join (input_dir_var self) name ∧
                           Py.endswith (Py.lower name) ".docx" = true) srcs.
Proof.
  assert (∀ w1 input_path output_path output_filename,
            merge_called srcs target
              ∈ (scan_and_merge w1 input_path output_path output_filename).2 →
            srcs ≠ [] ∧ target = path_join output_path output_filename ∧
            ∃ listing,
              listdir w1 input_path = Returned listing ∧
              srcs = select_sources input_path listing ∧
              Forall (λ src, ∃ name, name ∈ listing ∧
                        src = path_join input_path name ∧
                        Py.endswith (Py.lower name) ".docx" = true) srcs)
    as Hscan.
  { intros w1 input_path output_path output_filename.
    destruct (scan_and_merge_cases w1 input_path output_path output_filename)
      as [(e & _ & ->) | [(listing & _ & _ & ->) | (listing & Hls & Hne & ->)]];
      cbn [fst snd].
    - intros [|[]%elem_of_nil]%elem_of_cons; done.
    - intros [|[|[]%elem_of_nil]%elem_of_cons]%elem_of_cons; done.
    - intros Hmem. apply elem_of_app in Hmem as [Hmem|Hmem].
      + apply elem_of_cons in Hmem as [|Hmem]; [done|].
        apply elem_of_cons in Hmem as [|Hmem]; [done|].
        apply elem_of_cons in Hmem as [[= -> ->]|[]%elem_of_nil].
        split; [done|]. split; [done|]. exists listing.
        split; [done|]. split; [done|].
        rewrite select_sources_filter. apply Forall_fmap, Forall_forall.
        intros name [Hext Hin]%list_elem_of_filter. exists name.
        rewrite PyFacts.sorted_Permutation in Hin.
        split; [done|]. split; [done | by apply Is_true_true].
      + unfold report in Hmem.
        destruct (Py.contains _ "成功");
          apply elem_of_cons in Hmem as [|Hmem]; try done;
          apply elem_of_cons in Hmem as [|[]%elem_of_nil]; done. }
  destruct (start_merge_process_cases w self)
    as [[_ ->] | [(_ & _ & e & _ & ->) | [(_ & _ & u & _ & ->) | (_ & _ & ->)]]];
    cbn [fst snd].
  - intros [|[]%elem_of_nil]%elem_of_cons; done.
  - intros [|[|[]%elem_of_nil]%elem_of_cons]%elem_of_cons; done.
  - intros [|Hmem]%elem_of_cons; [done|].
    apply Hscan in Hmem as (Hne & Htarget & listing & Hls & Hsel & Hall).
    split; [done|]. split; [done|].
    exists (makedirs w (output_dir_var self)).1, listing. by auto.
  - intros Hmem.
    apply Hscan in Hmem as (Hne & Htarget & listing & Hls & Hsel & Hall).
    split; [done|]. split; [done|]. exists w, listing. by auto.
Qed.

Lemma engine_called_on_selection_witness :
  let w := Disk.sample in
  let self := {| input_dir_var := "/in"; output_dir_var := "/out";
                 output_filename_var := "m" |} in
  let srcs := ["/in/C.DOCX"; "/in/a.docx"; "/in/b.docx"] in
  merge_called srcs "/out/m.docx" ∈ (start_merge_process w self).2 ∧
  srcs ≠ [] ∧ "/out/m.docx" = path_join "/out" (normalize_filename "m") ∧
  ∃ w1 listing,
    (w1 = w ∨ w1 = (makedirs w "/out").1) ∧
    listdir w1 "/in" = Returned listing ∧
    srcs = select_sources "/in" listing ∧
    Forall (λ src, ∃ name, name ∈ listing ∧
                           src = path_join "/in" name ∧
                           Py.endswith (Py.lower name) ".docx" = true) srcs.
Proof.
  intros w self srcs.
  assert (merge_called srcs "/out/m.docx" ∈ (start_merge_process w self).2)
    as Hmem by (apply list_elem_of_In; do 2 right; left; reflexivity).
  destruct (engine_called_on_selection (H := Disk.posix) w self srcs
              "/out/m.docx" Hmem) as (Hne & Htarget & Hlisting).
  split; [exact Hmem|]. split; [exact Hne|]. split; [exact Htarget|].
  exact Hlisting.
Defined.

(** X10.  No text the handler sets the status line to has a line feed in it;
    the status text of a merge result is the message with every line feed
    replaced by a space, so of the same length. *)
Theorem status_line_single_line `{Platform} (w : World) (self : form) :
  Forall (λ text, Py.contains text Py.nl = false)
         (status_texts (start_merge_process w self).2) ∧
  (∀ message,
     status_texts (report message) = [Py.replace_nl message] ∧
     String.length (Py.replace_nl message) = String.length message).
Proof.
  split; [|intros message; split;
             [unfold report; by destruct (Py.contains _ "成功")
             | apply replace_nl_length]].
  assert (∀ w1 input_path output_path output_filename,
            Forall (λ text, Py.contains text Py.nl = false)
              (status_texts
                 (scan_and_merge w1 input_path output_path output_filename).2))
    as Hscan.
  { intros w1 input_path output_path output_filename.
    destruct (scan_and_merge_cases w1 input_path output_path output_filename)
      as [(e & _ & ->) | [(listing & _ & _ & ->) | (listing & _ & _ & ->)]];
      cbn [fst snd].
    - constructor.
    - repeat constructor.
    - unfold report. destruct (Py.contains _ "成功"); cbn [status_texts app omap
        list_omap]; repeat constructor; apply replace_nl_no_line_feed. }
  destruct (start_merge_process_cases w self)
    as [[_ ->] | [(_ & _ & e & _ & ->) | [(_ & _ & u & _ & ->) | (_ & _ & ->)]]];
    cbn [fst snd]; [constructor | constructor | apply Hscan | apply Hscan].
Qed.

(** X11.  The heading of the failure message has no 成功 in it, so the
    handler shows a failure of the engine in the error dialog exactly when
    the diagnostic has no 成功 in it, and in the information dialog exactly
    when it has. *)
Theorem failure_dialog_by_diagnostic (e : string) :
  Py.contains (msg_failure e) "成功" = Py.contains e "成功" ∧
  (Py.contains e "成功" = false ↔
   report (msg_failure e)
   = [showerror "合并失败" (msg_failure e);
      status_set (Py.replace_nl (msg_failure e))]) ∧
  (Py.contains e "成功" = true ↔
   report (msg_failure e)
   = [showinfo "合并完成" (msg_failure e);
      status_set (Py.replace_nl (msg_failure e))]).
Proof.
  assert (Py.contains (msg_failure e) "成功" = Py.contains e "成功") as Hhead
    by reflexivity.
  split; [done|]. unfold report. rewrite Hhead.
  destruct (Py.contains e "成功"); split; split; (done || discriminate).
Qed.

(** X12.  The two folder pickers: a cancelled dialog leaves the form as it
    is; a chosen folder replaces its own field and no other; the two pickers
    commute, and of two choices for the same field the later one stays. *)
Theorem pickers_change_their_own_field (self : form) (a b : string) :
  select_input_dir self "" = self ∧
  select_output_dir self "" = self ∧
  output_dir_var (select_input_dir self a) = output_dir_var self ∧
  output_filename_var (select_input_dir self a) = output_filename_var self ∧
  input_dir_var (select_output_dir self b) = input_dir_var self ∧
  output_filename_var (select_output_dir self b) = output_filename_var self ∧
  select_input_dir (select_output_dir self b) a
  = select_output_dir (select_input_dir self a) b ∧
  input_dir_var (select_input_dir (select_input_dir self a) b)
  = (if bool_decide (b ≠ "") then b
     else if bool_decide (a ≠ "") then a else input_dir_var self) ∧
  output_dir_var (select_output_dir (select_output_dir self a) b)
  = (if bool_decide (b ≠ "") then b
     else if bool_decide (a ≠ "") then a else output_dir_var self).
Proof.
  unfold select_input_dir, select_output_dir.
  repeat split; repeat case_bool_decide; done.
Qed.

(** X13.  What a run of the handler leaves of the file system: the one it
    started on, possibly after the [os.makedirs] on a missing output folder,
    and then possibly after one save, at the target made of the output folder
    and the normalized file name, and nothing else. *)
Theorem handler_writes `{Platform} (w : World) (self : form) :
  let output_path := output_dir_var self in
  let target := path_join output_path
                          (normalize_filename (output_filename_var self)) in
  let final := (start_merge_process w self).1 in
  ∃ w0, (w0 = w ∨
         (isdir w (input_dir_var self) = true ∧ isdir w output_path = false ∧
          w0 = (makedirs w output_path).1)) ∧
        (final = w0 ∨ ∃ doc, final = (save w0 doc target).1).
Proof.
  intros output_path target final. subst final target output_path.
  assert (∀ w1 input_path output_path output_filename,
            let final :=
              (scan_and_merge w1 input_path output_path output_filename).1 in
            final = w1 ∨
            ∃ doc, final
                   = (save w1 doc (path_join output_path output_filename)).1)
    as Hscan.
  { intros w1 input_path output_path output_filename final. subst final.
    destruct (scan_and_merge_cases w1 input_path output_path output_filename)
      as [(e & _ & ->) | [(listing & _ & _ & ->) | (listing & _ & _ & ->)]];
      cbn [fst snd]; [by left | by left |].
    destruct (merge_state w1 (select_sources input_path listing)
                (path_join output_path output_filename))
      as [-> | (doc & _ & ->)]; [by left | right; by exists doc]. }
  destruct (start_merge_process_cases w self)
    as [[_ ->] | [(? & ? & e & _ & ->) | [(? & ? & u & _ & ->) | (_ & _ & ->)]]];
    cbn [fst snd].
  - exists w. split; [by left | by left].
  - exists (makedirs w (output_dir_var self)).1. split; [by right | by left].
  - exists (makedirs w (output_dir_var self)).1. split; [by right | apply Hscan].
  - exists w. split; [by left | apply Hscan].
Qed.
